(** * Nautobot developer tooling: the Tenancy navigation menu and the Invoke tasks

    A shallow embedding of [nautobot/tenancy/navigation.py] (the static menu
    tree) and of [tasks.py]: the Docker Compose command line, the tasks that
    run it ([docker_compose], [build], [start], [createsuperuser], the linters,
    [unittest], [tests], ...) and the probe of the freshly started server
    ([integration_tests]). *)

From Stdlib Require Import String Ascii List ZArith Arith Lia Bool DecimalString Sorted.
From Equations Require Import Equations.
Import ListNotations.
Local Open Scope string_scope.

(** ** nautobot/tenancy/navigation.py *)

Module Navigation.

(** [NavMenuAddButton] and [NavMenuImportButton] are two classes of button;
    the literal gives each a link and a permission list. *)
Inductive button_class := NavMenuAddButton | NavMenuImportButton.

Record NavMenuButton := {
  button_class_of : button_class;
  button_link : string;
  button_permissions : list string
}.

Record NavMenuItem := {
  item_link : string;
  item_name : string;
  item_weight : Z;
  item_permissions : list string;
  buttons : list NavMenuButton
}.

Record NavMenuGroup := {
  group_name : string;
  group_weight : Z;
  items : list NavMenuItem
}.

Record NavMenuTab := {
  tab_name : string;
  tab_weight : Z;
  groups : list NavMenuGroup
}.

Definition menu_items : list NavMenuTab :=
  [ {| tab_name := "Organization";
       tab_weight := 100;
       groups :=
         [ {| group_name := "Tenancy";
              group_weight := 300;
              items :=
                [ {| item_link := "tenancy:tenant_list";
                     item_name := "Tenants";
                     item_weight := 100;
                     item_permissions := [ "tenancy.view_tenant" ];
                     buttons :=
                       [ {| button_class_of := NavMenuAddButton;
                            button_link := "tenancy:tenant_add";
                            button_permissions := [ "tenancy.add_tag" ] |};
                         {| button_class_of := NavMenuImportButton;
                            button_link := "tenancy:tenant_import";
                            button_permissions := [ "tenancy.add_tenant" ] |} ] |};
                  {| item_link := "tenancy:tenantgroup_list";
                     item_name := "Tenant Groups";
                     item_weight := 200;
                     item_permissions := [ "tenancy.view_tenantgroup" ];
                     buttons :=
                       [ {| button_class_of := NavMenuAddButton;
                            button_link := "tenancy:tenantgroup_add";
                            button_permissions := [ "tenancy.add_tenantgroup" ] |};
                         {| button_class_of := NavMenuImportButton;
                            button_link := "tenancy:tenantgroup_import";
                            button_permissions := [ "tenancy.add_tenantgroup" ] |} ] |} ] |} ] |} ].

(** Enumeration of the tree, level by level. *)
Definition all_groups (tabs : list NavMenuTab) : list NavMenuGroup :=
  flat_map groups tabs.

Definition all_items (tabs : list NavMenuTab) : list NavMenuItem :=
  flat_map items (all_groups tabs).

Definition all_buttons (tabs : list NavMenuTab) : list NavMenuButton :=
  flat_map buttons (all_items tabs).

Definition button_class_eqb (a b : button_class) : bool :=
  match a, b with
  | NavMenuAddButton, NavMenuAddButton => true
  | NavMenuImportButton, NavMenuImportButton => true
  | _, _ => false
  end.

(** The items carrying a given display name, and the buttons of a given class
    on an item. *)
Definition items_named (name : string) (tabs : list NavMenuTab) : list NavMenuItem :=
  filter (fun it => String.eqb (item_name it) name) (all_items tabs).

Definition buttons_of_class (c : button_class) (it : NavMenuItem) : list NavMenuButton :=
  filter (fun b => button_class_eqb (button_class_of b) c) (buttons it).

End Navigation.

(** ** tasks.py *)

Module Tasks.

(** *** Effects

    A task prints, runs shell commands through [context.run], issues HTTP GET
    requests and sleeps.  Each of these is logged, in order, as an event. *)
Inductive event :=
| Stdout (text : string)
| Run (command : string) (env : list (string * string)) (pty : bool)
| Get (url : string) (timeout : Z)
| Sleep (seconds : Z).

(** Exceptions that can leave a task. *)
Inductive exn :=
| Exit (message : string) (code : Z)   (* invoke.exceptions.Exit *)
| UnexpectedExit (code : Z)            (* context.run on a non-zero exit status *)
| ConnectionError                      (* requests.exceptions.ConnectionError *)
| RequestException.                    (* any other exception of session.get *)

(** What one [session.get] does. *)
Inductive reply :=
| Refused                       (* raises ConnectionError *)
| Broken                        (* raises another exception *)
| Answered (status_code : Z).   (* returns a response *)

(** The surroundings of the process: environment variables, the directory of
    tasks.py, the file system test of the override file, the exit status of a
    shell command, and the outcome of the k-th GET request (counted from 0). *)
Record world := {
  getenv : string -> option string;
  file_dirname : string;
  isfile : string -> bool;
  exit_status : string -> Z;
  probe : nat -> reply
}.

Inductive result (A : Type) :=
| Return (a : A)
| Raise (e : exn).
Arguments Return {A} a.
Arguments Raise {A} e.

(** A computation threads the log of events so far. *)
Definition task (A : Type) : Type := list event -> result A * list event.

Definition ret {A} (a : A) : task A := fun log => (Return a, log).

Definition raise {A} (e : exn) : task A := fun log => (Raise e, log).

Definition bind {A B} (c : task A) (k : A -> task B) : task B :=
  fun log =>
    match c log with
    | (Return a, log') => k a log'
    | (Raise e, log') => (Raise e, log')
    end.

Definition emit (e : event) : task unit := fun log => (Return tt, (log ++ [e])%list).

Declare Scope task_scope.
Delimit Scope task_scope with task.
Notation "x <- c ;; k" := (bind c (fun x => k))
  (at level 61, c at next level, right associativity) : task_scope.
Notation "c ;; k" := (bind c (fun _ => k))
  (at level 61, right associativity) : task_scope.
Local Open Scope task_scope.

(** [try: c  except requests.exceptions.ConnectionError: ...]: [None] stands
    for the except branch being taken; other exceptions pass through. *)
Definition try_except_ConnectionError {A} (c : task A) : task (option A) :=
  fun log =>
    match c log with
    | (Return a, log') => (Return (Some a), log')
    | (Raise ConnectionError, log') => (Return None, log')
    | (Raise e, log') => (Raise e, log')
    end.

(** Number of GET requests issued so far. *)
Definition is_get (e : event) : bool :=
  match e with Get _ _ => true | _ => false end.

Definition requests_made (log : list event) : nat :=
  length (filter is_get log).

(** Durations of the sleeps, in order. *)
Fixpoint sleep_durations (log : list event) : list Z :=
  match log with
  | [] => []
  | Sleep s :: rest => s :: sleep_durations rest
  | _ :: rest => sleep_durations rest
  end.

(** [str(n)] for an integer. *)
Definition str (n : Z) : string := NilZero.string_of_int (Z.to_int n).

Definition dquote : string := String "034"%char EmptyString.

(** [os.path.join(a, b)] on a POSIX system. *)
Definition starts_with_slash (s : string) : bool :=
  match s with
  | String c _ => Ascii.eqb c "/"%char
  | EmptyString => false
  end.

Fixpoint ends_with_slash (s : string) : bool :=
  match s with
  | EmptyString => false
  | String c EmptyString => Ascii.eqb c "/"%char
  | String _ rest => ends_with_slash rest
  end.

Definition path_join (a b : string) : string :=
  if starts_with_slash b then b
  else if orb (String.eqb a EmptyString) (ends_with_slash a) then a ++ b
  else a ++ "/" ++ b.

Section Runner.

Variable w : world.

Definition os_getenv (name default : string) : string :=
  match getenv w name with
  | Some v => v
  | None => default
  end.

Definition PYTHON_VER : string := os_getenv "PYTHON_VER" "3.6".

Definition PROJECT_NAME : string := "nautobot_dev".
Definition COMPOSE_DIR : string := path_join (file_dirname w) "development/".
Definition COMPOSE_FILE : string := path_join COMPOSE_DIR "docker-compose.yml".
Definition OVERRIDE_FILENAME : string := os_getenv "OVERRIDE_FILENAME" "docker-compose.dev.yml".
Definition COMPOSE_OVERRIDE_FILE : string := path_join COMPOSE_DIR OVERRIDE_FILENAME.

Definition COMPOSE_COMMAND : string :=
  let base :=
    "docker-compose --project-name " ++ PROJECT_NAME
      ++ " --project-directory " ++ dquote ++ COMPOSE_DIR ++ dquote
      ++ " -f " ++ dquote ++ COMPOSE_FILE ++ dquote in
  if isfile w COMPOSE_OVERRIDE_FILE
  then base ++ " -f " ++ dquote ++ COMPOSE_OVERRIDE_FILE ++ dquote
  else base.

Definition print (text : string) : task unit := emit (Stdout text).

Definition sleep (seconds : Z) : task unit := emit (Sleep seconds).

(** [context.run(command, env=..., pty=...)]: with Invoke's defaults a non-zero
    exit status raises. *)
Definition context_run (command : string) (env : list (string * string)) (pty : bool)
  : task unit :=
  emit (Run command env pty) ;;
  let status := exit_status w command in
  if (status =? 0)%Z then ret tt else raise (UnexpectedExit status).

(** [session.get(url, timeout=...)]: the outcome is that of the next probe. *)
Definition session_get (url : string) (timeout : Z) : task Z :=
  fun log =>
    let log' := (log ++ [Get url timeout])%list in
    match probe w (requests_made log) with
    | Refused => (Raise ConnectionError, log')
    | Broken => (Raise RequestException, log')
    | Answered status_code => (Return status_code, log')
    end.

Definition docker_compose (command : string) (pty : bool) : task unit :=
  print ("Running docker-compose command " ++ dquote ++ command ++ dquote) ;;
  context_run (COMPOSE_COMMAND ++ " " ++ command) [("PYTHON_VER", PYTHON_VER)] pty.

Definition start : task unit :=
  print "Starting Nautobot in detached mode..." ;;
  docker_compose "up --detach" false.

(** The command is a plain string literal in the source (no [f] prefix). *)
Definition createsuperuser (user : string) : task unit :=
  docker_compose "run nautobot nautobot-server createsuperuser --username {user}" true.

(** The [while retries < max_retries] loop of [integration_tests]; it returns
    the value of [retries] on leaving the loop ([break] or a false test), or
    raises. *)
Equations? poll (max_retries retries : nat) : task nat
  by wf (max_retries - retries) lt :=
poll max_retries retries with lt_dec retries max_retries := {
  | left _ =>
      request <- try_except_ConnectionError (session_get "http://localhost:8080" 300) ;;
      match request with
      | None =>
          print "Nautobot not ready yet sleeping for 5 seconds..." ;;
          sleep 5 ;;
          poll max_retries (retries + 1)
      | Some status_code =>
          if (status_code =? 200)%Z
          then print "Nautobot is ready..." ;; ret retries
          else raise (Exit ("Nautobot returned and invalid status " ++ str status_code)
                           status_code)
      end
  | right _ => ret retries }.
Proof. lia. Qed.

Definition integration_tests : task unit :=
  let retries := 1 in
  let max_retries := 60 in
  start ;;
  retries <- poll max_retries retries ;;
  if (max_retries <=? retries)%nat
  then raise (Exit "Timed Out waiting for Nautobot" 1)
  else ret tt.

End Runner.

(** *** Vocabulary for the statements about [integration_tests] *)

(** The events of one failed attempt: the request, the message, the pause. *)
Definition retry_block : list event :=
  [ Get "http://localhost:8080" 300;
    Stdout "Nautobot not ready yet sleeping for 5 seconds...";
    Sleep 5 ].

Fixpoint retry_blocks (k : nat) : list event :=
  match k with
  | O => []
  | S k' => (retry_block ++ retry_blocks k')%list
  end.

(** The shell command of [start] and the events it logs. *)
Definition start_command (w : world) : string :=
  COMPOSE_COMMAND w ++ " " ++ "up --detach".

Definition start_events (w : world) : list event :=
  [ Stdout "Starting Nautobot in detached mode...";
    Stdout ("Running docker-compose command " ++ dquote ++ "up --detach" ++ dquote);
    Run (start_command w) [("PYTHON_VER", PYTHON_VER w)] false ].

Definition timed_out : exn := Exit "Timed Out waiting for Nautobot" 1.

Definition invalid_status (status_code : Z) : exn :=
  Exit ("Nautobot returned and invalid status " ++ str status_code) status_code.

Section Endings.

Variable w : world.

(** How the loop can end after [k] refused requests, started with the counter
    at [retries] and the log [log]. *)
Inductive poll_end (max_retries retries : nat) (log : list event) (k : nat)
  : result nat * list event -> Prop :=
| End_exhausted :
    ~ retries + k < max_retries ->
    poll_end max_retries retries log k
      (Return (retries + k), (log ++ retry_blocks k)%list)
| End_ready :
    retries + k < max_retries ->
    probe w (requests_made log + k) = Answered 200 ->
    poll_end max_retries retries log k
      (Return (retries + k),
       (log ++ retry_blocks k
            ++ [Get "http://localhost:8080" 300; Stdout "Nautobot is ready..."])%list)
| End_invalid (status_code : Z) :
    retries + k < max_retries ->
    probe w (requests_made log + k) = Answered status_code ->
    status_code <> 200%Z ->
    poll_end max_retries retries log k
      (Raise (invalid_status status_code),
       (log ++ retry_blocks k ++ [Get "http://localhost:8080" 300])%list)
| End_broken :
    retries + k < max_retries ->
    probe w (requests_made log + k) = Broken ->
    poll_end max_retries retries log k
      (Raise RequestException,
       (log ++ retry_blocks k ++ [Get "http://localhost:8080" 300])%list).

(** How a run of the task can end after [k] refused requests. *)
Inductive run_end (k : nat) : result unit * list event -> Prop :=
| Run_timed_out :
    k = 59 ->
    run_end k (Raise timed_out, (start_events w ++ retry_blocks k)%list)
| Run_ready :
    k < 59 ->
    probe w k = Answered 200 ->
    run_end k
      (Return tt,
       (start_events w ++ retry_blocks k
          ++ [Get "http://localhost:8080" 300; Stdout "Nautobot is ready..."])%list)
| Run_invalid (status_code : Z) :
    k < 59 ->
    probe w k = Answered status_code ->
    status_code <> 200%Z ->
    run_end k
      (Raise (invalid_status status_code),
       (start_events w ++ retry_blocks k ++ [Get "http://localhost:8080" 300])%list)
| Run_broken :
    k < 59 ->
    probe w k = Broken ->
    run_end k
      (Raise RequestException,
       (start_events w ++ retry_blocks k ++ [Get "http://localhost:8080" 300])%list).

End Endings.

(** A world in which the containers start and the server replies as given. *)
Definition lab (replies : nat -> reply) : world :=
  {| getenv := fun _ => None;
     file_dirname := "/opt/nautobot";
     isfile := fun _ => false;
     exit_status := fun _ => 0%Z;
     probe := replies |}.

(** The server refuses the first [n] requests and then answers [status_code]. *)
Definition ready_after (n : nat) (status_code : Z) : nat -> reply :=
  fun k => if (k <? n)%nat then Refused else Answered status_code.

(** *** The remaining tasks *)

(** Truth value of a string in a condition: the empty string is false. *)
Definition truthy (s : string) : bool :=
  match s with
  | EmptyString => false
  | String _ _ => true
  end.

Section OtherTasks.

Variable w : world.

(** [build(context, force_rm=False, cache=True)] *)
Definition build (force_rm cache : bool) : task unit :=
  print "Building Nautobot .. " ;;
  let command := "build --build-arg PYTHON_VER=" ++ PYTHON_VER w in
  let command := if negb cache then command ++ " --no-cache" else command in
  let command := if force_rm then command ++ " --force-rm" else command in
  docker_compose w command false.

(** [buildx(context, cache=True, cache_dir=..., platforms=..., tag=..., target=...)] *)
Definition buildx (cache : bool) (cache_dir platforms tag target : string) : task unit :=
  print "Building Nautobot .. " ;;
  let command :=
    "docker buildx build --platform " ++ platforms ++ " -t " ++ tag
      ++ " --target " ++ target
      ++ " --load -f ./docker/Dockerfile --build-arg PYTHON_VER=" ++ PYTHON_VER w
      ++ " ." in
  let command :=
    if negb cache then command ++ " --no-cache"
    else command
           ++ (" --cache-to type=local,dest=" ++ cache_dir ++ "/" ++ PYTHON_VER w
               ++ " --cache-from type=local,src=" ++ cache_dir ++ "/" ++ PYTHON_VER w) in
  context_run w command [("PYTHON_VER", PYTHON_VER w)] false.

Definition buildx_default : task unit :=
  buildx true "/home/travis/.cache/docker" "linux/amd64"
    "networktocode/nautobot-dev:local" "dev".

Definition debug : task unit :=
  print "Starting Nautobot in debug mode..." ;;
  docker_compose w "up" false.

Definition restart : task unit :=
  print "Restarting Nautobot..." ;;
  docker_compose w "restart" false.

Definition stop : task unit :=
  print "Stopping Nautobot..." ;;
  docker_compose w "down" false.

Definition destroy : task unit :=
  print "Destroying Nautobot..." ;;
  docker_compose w "down --volumes" false.

Definition vscode : task unit :=
  context_run w "code nautobot.code-workspace" [("PYTHON_VER", PYTHON_VER w)] false.

Definition nbshell : task unit :=
  docker_compose w "run nautobot nautobot-server nbshell" true.

Definition cli : task unit :=
  docker_compose w "exec nautobot bash" true.

(** [makemigrations(context, name="")] *)
Definition makemigrations (name : string) : task unit :=
  let command := "run nautobot nautobot-server makemigrations" in
  let command := if truthy name then command ++ " --name " ++ name else command in
  docker_compose w command false.

Definition migrate : task unit :=
  docker_compose w "run nautobot nautobot-server migrate" false.

Definition post_upgrade : task unit :=
  docker_compose w "run nautobot nautobot-server post_upgrade" false.

(** [black(context, autoformat=False, local=False)]; [context.run(command)]
    passes no environment and no pty. *)
Definition black (autoformat local : bool) : task unit :=
  let black_command := if autoformat then "black" else "black --check --diff" in
  let command := black_command ++ " development/ nautobot/ tasks.py" in
  if local then context_run w command [] false
  else docker_compose w ("run --entrypoint '" ++ command ++ "' nautobot") true.

(** [flake8(context, local=False)] *)
Definition flake8 (local : bool) : task unit :=
  let command := "flake8 development/ nautobot/ tasks.py" in
  if local then context_run w command [] false
  else docker_compose w ("run --entrypoint '" ++ command ++ "' nautobot") true.

(** [hadolint(context, local=False)] *)
Definition hadolint (local : bool) : task unit :=
  let command := "hadolint docker/Dockerfile" in
  if local then context_run w command [] false
  else docker_compose w ("run --entrypoint '" ++ command ++ "' nautobot") true.

(** [unittest(context, keepdb=False, label="nautobot")] *)
Definition unittest (keepdb : bool) (label : string) : task unit :=
  let command :=
    "run --entrypoint 'coverage run -m nautobot.core.cli test " ++ label
      ++ " --failfast" in
  let command := if keepdb then command ++ " --keepdb" else command in
  let command := command ++ "' nautobot" in
  docker_compose w command true.

Definition unittest_coverage : task unit :=
  docker_compose w
    "run --entrypoint 'coverage report --skip-covered --omit *migrations*' nautobot" true.

(** [tests(context)]: each task is called with its defaults. *)
Definition tests : task unit :=
  black false false ;;
  flake8 false ;;
  hadolint false ;;
  unittest false "nautobot".

End OtherTasks.

(** *** Vocabulary for the statements about the remaining tasks *)

(** The shell commands of a log, in order. *)
Fixpoint commands_run (log : list event) : list string :=
  match log with
  | [] => []
  | Run command _ _ :: rest => command :: commands_run rest
  | _ :: rest => commands_run rest
  end.

(** The lines printed, in order. *)
Fixpoint printed (log : list event) : list string :=
  match log with
  | [] => []
  | Stdout text :: rest => text :: printed rest
  | _ :: rest => printed rest
  end.

(** Running [commands] one after the other until one exits non-zero: the
    commands that were started, and the status that stopped the sequence. *)
Fixpoint until_failure (w : world) (commands : list string) : list string * option Z :=
  match commands with
  | [] => ([], None)
  | c :: rest =>
      if (exit_status w c =? 0)%Z
      then let (started, failed) := until_failure w rest in (c :: started, failed)
      else ([c], Some (exit_status w c))
  end.

(** The command [docker_compose] runs for a sub-command. *)
Definition compose (w : world) (command : string) : string :=
  COMPOSE_COMMAND w ++ " " ++ command.

(** The four command lines of [tests]. *)
Definition tests_commands (w : world) : list string :=
  [ compose w "run --entrypoint 'black --check --diff development/ nautobot/ tasks.py' nautobot";
    compose w "run --entrypoint 'flake8 development/ nautobot/ tasks.py' nautobot";
    compose w "run --entrypoint 'hadolint docker/Dockerfile' nautobot";
    compose w "run --entrypoint 'coverage run -m nautobot.core.cli test nautobot --failfast' nautobot" ].

(** A world given by its environment, its files, the exit statuses of its
    commands and the replies of its server. *)
Definition site (env : string -> option string) (dir : string)
    (files : string -> bool) (statuses : string -> Z) (replies : nat -> reply) : world :=
  {| getenv := env;
     file_dirname := dir;
     isfile := files;
     exit_status := statuses;
     probe := replies |}.

(** A task that prints [banner], runs one shell command, and passes on the
    outcome of that command. *)
Definition runs (w : world) (t : task unit) (banner : list string)
    (command : string) (env : list (string * string)) (pty : bool) : Prop :=
  forall log,
    t log =
    (if (exit_status w command =? 0)%Z
     then Return tt
     else Raise (UnexpectedExit (exit_status w command)),
     (log ++ map Stdout banner ++ [Run command env pty])%list).

(** The same through [docker_compose]: the sub-command is announced, prefixed
    with [COMPOSE_COMMAND], and run with PYTHON_VER in its environment. *)
Definition runs_compose (w : world) (t : task unit) (banner : list string)
    (command : string) (pty : bool) : Prop :=
  runs w t
    (banner ++ [("Running docker-compose command " ++ dquote ++ command ++ dquote)%string])%list
    (compose w command) [("PYTHON_VER", PYTHON_VER w)] pty.

(** The pauses that follow each request: for every GET of the log, in order,
    the durations slept after it and before the next GET (or the end). *)
Fixpoint sleeps_until_get (log : list event) : list Z :=
  match log with
  | [] => []
  | Get _ _ :: _ => []
  | Sleep s :: rest => s :: sleeps_until_get rest
  | _ :: rest => sleeps_until_get rest
  end.

Fixpoint delays (log : list event) : list (list Z) :=
  match log with
  | [] => []
  | Get _ _ :: rest => sleeps_until_get rest :: delays rest
  | _ :: rest => delays rest
  end.

(** The pause the loop owes after a reply: one of 5 seconds after a refused
    request, none after any other. *)
Definition delay_due (r : reply) : list Z :=
  match r with
  | Refused => [5%Z]
  | _ => []
  end.

(** Sum of the seconds slept. *)
Definition seconds_slept (log : list event) : Z :=
  fold_right Z.add 0%Z (sleep_durations log).

End Tasks.

(** * Properties *)

Module NavigationFacts.
Import Navigation.

(** C7. Every item of [menu_items] and every button of every item carries at
    least one permission. *)
Theorem permissions_nonempty :
  Forall (fun it => item_permissions it <> []) (all_items menu_items) /\
  Forall (fun b => button_permissions b <> []) (all_buttons menu_items).
Proof.
  split; simpl; repeat constructor; discriminate.
Qed.

(** C8. Siblings never share a weight: the tabs of the tree, the groups of
    each tab and the items of each group have pairwise distinct weights. *)
Theorem sibling_weights_distinct :
  NoDup (map tab_weight menu_items) /\
  Forall (fun tab => NoDup (map group_weight (groups tab))) menu_items /\
  Forall (fun group => NoDup (map item_weight (items group))) (all_groups menu_items).
Proof.
  repeat split; simpl; repeat constructor;
    simpl; intuition discriminate.
Qed.

(** C10. There is one item named "Tenants"; its add button asks for exactly
    "tenancy.add_tag", which is not the tenant permission its import button
    asks for, "tenancy.add_tenant". *)
Theorem tenants_button_permissions :
  exists tenants,
    items_named "Tenants" menu_items = [tenants] /\
    map button_permissions (buttons_of_class NavMenuAddButton tenants)
      = [ [ "tenancy.add_tag" ] ] /\
    map button_permissions (buttons_of_class NavMenuImportButton tenants)
      = [ [ "tenancy.add_tenant" ] ] /\
    "tenancy.add_tag" <> "tenancy.add_tenant".
Proof.
  eexists. split; [reflexivity|].
  split; [reflexivity|]. split; [reflexivity|]. discriminate.
Qed.

End NavigationFacts.

Module TasksFacts.
Import Tasks.
Local Open Scope task_scope.

Section Polling.

Variable w : world.

Lemma requests_made_app (l1 l2 : list event) :
  requests_made (l1 ++ l2) = requests_made l1 + requests_made l2.
Proof.
  unfold requests_made. rewrite filter_app, length_app. reflexivity.
Qed.

Lemma requests_made_retry_blocks (k : nat) : requests_made (retry_blocks k) = k.
Proof.
  induction k as [|k IH]; [reflexivity|].
  change (retry_blocks (S k)) with (retry_block ++ retry_blocks k)%list.
  rewrite requests_made_app, IH. reflexivity.
Qed.

Lemma sleep_durations_app (l1 l2 : list event) :
  sleep_durations (l1 ++ l2) = (sleep_durations l1 ++ sleep_durations l2)%list.
Proof.
  induction l1 as [|e l1 IH]; [reflexivity|].
  destruct e; simpl; rewrite IH; reflexivity.
Qed.

Lemma sleep_durations_retry_blocks (k : nat) :
  sleep_durations (retry_blocks k) = repeat 5%Z k.
Proof.
  induction k as [|k IH]; [reflexivity|].
  simpl. rewrite IH. reflexivity.
Qed.

(** One turn of the loop, by cases on the test and on the reply. *)
Lemma poll_done (max_retries retries : nat) (log : list event) :
  ~ retries < max_retries ->
  poll w max_retries retries log = (Return retries, log).
Proof.
  intros Hge. rewrite poll_equation_1.
  destruct (lt_dec retries max_retries) as [Hlt|Hge']; [contradiction|reflexivity].
Qed.

Lemma poll_turn (max_retries retries : nat) (log : list event) :
  retries < max_retries ->
  poll w max_retries retries log =
  match probe w (requests_made log) with
  | Refused => poll w max_retries (retries + 1) (log ++ retry_block)%list
  | Broken => (Raise RequestException, (log ++ [Get "http://localhost:8080" 300])%list)
  | Answered status_code =>
      if (status_code =? 200)%Z
      then (Return retries,
            (log ++ [Get "http://localhost:8080" 300; Stdout "Nautobot is ready..."])%list)
      else (Raise (invalid_status status_code),
            (log ++ [Get "http://localhost:8080" 300])%list)
  end.
Proof.
  intros Hlt. rewrite poll_equation_1.
  destruct (lt_dec retries max_retries) as [Hlt'|Hge]; [|contradiction].
  cbn [poll_unfold_clause_1].
  unfold bind at 1, try_except_ConnectionError, session_get.
  destruct (probe w (requests_made log)) as [| |status_code].
  - unfold bind, print, sleep, emit, retry_block.
    rewrite <- !app_assoc. reflexivity.
  - reflexivity.
  - destruct (status_code =? 200)%Z.
    + unfold bind, print, emit, ret. rewrite <- app_assoc. reflexivity.
    + reflexivity.
Qed.

(** A run of refused requests advances the counter by as many turns. *)
Lemma poll_refused_run (max_retries k : nat) :
  forall (retries : nat) (log : list event),
    retries + k <= max_retries ->
    (forall j, j < k -> probe w (requests_made log + j) = Refused) ->
    poll w max_retries retries log =
    poll w max_retries (retries + k) (log ++ retry_blocks k)%list.
Proof.
  induction k as [|k IH]; intros retries log Hle Hrefused.
  - rewrite Nat.add_0_r. simpl. rewrite app_nil_r. reflexivity.
  - rewrite poll_turn by lia.
    pose proof (Hrefused 0 ltac:(lia)) as H0. rewrite Nat.add_0_r in H0.
    rewrite H0. rewrite IH.
    + replace (retries + 1 + k) with (retries + S k) by lia.
      change (retry_blocks (S k)) with (retry_block ++ retry_blocks k)%list.
      rewrite <- app_assoc. reflexivity.
    + lia.
    + intros j Hj. rewrite requests_made_app.
      change (requests_made retry_block) with 1.
      replace (requests_made log + 1 + j) with (requests_made log + S j) by lia.
      apply Hrefused. lia.
Qed.

Lemma poll_spec (max_retries : nat) :
  forall (n retries : nat) (log : list event),
    max_retries - retries = n ->
    exists k,
      k <= n /\
      (forall j, j < k -> probe w (requests_made log + j) = Refused) /\
      poll_end w max_retries retries log k (poll w max_retries retries log).
Proof.
  induction n as [|n IH]; intros retries log Hn.
  - exists 0. split; [lia|]. split; [intros j Hj; lia|].
    rewrite poll_done by lia.
    replace (Return retries, log)
      with (Return (retries + 0), (log ++ retry_blocks 0)%list)
      by (rewrite Nat.add_0_r; simpl; rewrite app_nil_r; reflexivity).
    apply End_exhausted. lia.
  - assert (Hlt : retries < max_retries) by lia.
    rewrite (poll_turn _ _ _ Hlt).
    destruct (probe w (requests_made log)) as [| |status_code] eqn:Hprobe.
    + destruct (IH (retries + 1) (log ++ retry_block)%list ltac:(lia))
        as (k & Hk & Hrefused & Hend).
      assert (Hreq : forall j, requests_made (log ++ retry_block) + j
                               = requests_made log + S j).
      { intros j. rewrite requests_made_app.
        change (requests_made retry_block) with 1. lia. }
      exists (S k). split; [lia|]. split.
      * intros [|j] Hj.
        -- rewrite Nat.add_0_r. exact Hprobe.
        -- rewrite <- Hreq. apply Hrefused. lia.
      * change (retry_blocks (S k)) with (retry_block ++ retry_blocks k)%list.
        destruct Hend as [Hge | Hlt' Hp | c Hlt' Hp Hc | Hlt' Hp];
          rewrite <- !app_assoc; try rewrite Hreq in Hp;
          replace (retries + 1 + k) with (retries + S k) by lia.
        -- apply End_exhausted. lia.
        -- apply End_ready; [lia|exact Hp].
        -- apply End_invalid; [lia|exact Hp|exact Hc].
        -- apply End_broken; [lia|exact Hp].
    + exists 0. split; [lia|]. split; [intros j Hj; lia|].
      apply (End_broken w max_retries retries log 0); [lia|].
      rewrite Nat.add_0_r. exact Hprobe.
    + exists 0. split; [lia|]. split; [intros j Hj; lia|].
      destruct (Z.eqb_spec status_code 200) as [->|Hne].
      * replace (Return retries) with (@Return nat (retries + 0))
          by (rewrite Nat.add_0_r; reflexivity).
        apply (End_ready w max_retries retries log 0); [lia|].
        rewrite Nat.add_0_r. exact Hprobe.
      * apply (End_invalid w max_retries retries log 0 status_code); [lia| |exact Hne].
        rewrite Nat.add_0_r. exact Hprobe.
Qed.

(** [start] logs the same three events whether or not the command succeeds. *)
Lemma start_run (log : list event) :
  start w log =
  (if (exit_status w (start_command w) =? 0)%Z
   then Return tt
   else Raise (UnexpectedExit (exit_status w (start_command w))),
   (log ++ start_events w)%list).
Proof.
  unfold start, docker_compose, context_run, print, emit, bind, start_events.
  fold (start_command w).
  rewrite <- !app_assoc. simpl.
  destruct (exit_status w (start_command w) =? 0)%Z; reflexivity.
Qed.

Lemma requests_made_start_events : requests_made (start_events w) = 0.
Proof. reflexivity. Qed.

(** [integration_tests] once the containers are up: the loop, then the test
    on the counter. *)
Lemma integration_tests_started :
  exit_status w (start_command w) = 0%Z ->
  integration_tests w [] =
  match poll w 60 1 (start_events w) with
  | (Return retries, log) =>
      if (60 <=? retries)%nat then (Raise timed_out, log) else (Return tt, log)
  | (Raise e, log) => (Raise e, log)
  end.
Proof.
  intros Hup. unfold integration_tests.
  unfold bind at 1. rewrite start_run, Hup. simpl app.
  cbn [Z.eqb]. unfold bind.
  destruct (poll w 60 1 (start_events w)) as [[retries|e] log]; [|reflexivity].
  destruct (60 <=? retries)%nat; reflexivity.
Qed.

Lemma integration_tests_not_started :
  exit_status w (start_command w) <> 0%Z ->
  integration_tests w [] =
  (Raise (UnexpectedExit (exit_status w (start_command w))), start_events w).
Proof.
  intros Hdown. unfold integration_tests.
  unfold bind at 1. rewrite start_run.
  destruct (Z.eqb_spec (exit_status w (start_command w)) 0); [contradiction|].
  reflexivity.
Qed.

Lemma integration_tests_spec :
  exit_status w (start_command w) = 0%Z ->
  exists k,
    (forall j, j < k -> probe w j = Refused) /\
    run_end w k (integration_tests w []).
Proof.
  intros Hup. rewrite (integration_tests_started Hup).
  destruct (poll_spec 60 59 1 (start_events w) eq_refl) as (k & Hk & Hrefused & Hend).
  rewrite requests_made_start_events in Hrefused.
  exists k. split; [exact Hrefused|].
  destruct Hend as [Hge | Hlt Hp | c Hlt Hp Hc | Hlt Hp];
    try (rewrite requests_made_start_events in Hp; cbn [Nat.add] in Hp).
  - assert (k = 59) as -> by lia. apply Run_timed_out. reflexivity.
  - destruct (Nat.leb_spec 60 (1 + k)); [lia|].
    apply Run_ready; [lia|exact Hp].
  - apply Run_invalid; [lia|exact Hp|exact Hc].
  - apply Run_broken; [lia|exact Hp].
Qed.

(** Which requests a run makes: request number [1 + k] is sent exactly when
    its number is below 60 and the [k] requests before it were refused. *)
Lemma request_made_iff (k : nat) :
  exit_status w (start_command w) = 0%Z ->
  k < requests_made (snd (integration_tests w [])) <->
  1 + k < 60 /\ (forall j, j < k -> probe w j = Refused).
Proof.
  intros Hup.
  destruct (integration_tests_spec Hup) as (k0 & Hrefused & Hend).
  assert (Hfirst : forall r, probe w k0 = r -> r <> Refused -> k <= k0 \/
                     ~ (forall j, j < k -> probe w j = Refused)).
  { intros r Hr Hne. destruct (Nat.le_gt_cases k k0) as [Hle|Hgt]; [left; exact Hle|].
    right. intros Hall. apply Hne. rewrite <- Hr. apply Hall. exact Hgt. }
  destruct Hend as [-> | Hlt Hp | c Hlt Hp Hc | Hlt Hp]; cbn [snd];
    rewrite !requests_made_app, requests_made_start_events,
      requests_made_retry_blocks;
    unfold requests_made; simpl.
  1: { split.
       - intros Hk. split; [lia|]. intros j Hj. apply Hrefused. lia.
       - intros [Hk _]. lia. }
  all: destruct (Hfirst _ Hp ltac:(discriminate)) as [Hle|Hno]; split;
    [ intros _; split; [lia | intros j Hj; apply Hrefused; lia]
    | intros _; lia
    | intros Hk; split; [lia | intros j Hj; apply Hrefused; lia]
    | intros [_ Hall]; contradiction ].
Qed.

(** Up to the last turn of the loop: after [k] refused requests the counter is
    at [1 + k] and the log holds [k] retry blocks. *)
Lemma integration_tests_after_refusals (k : nat) :
  exit_status w (start_command w) = 0%Z ->
  1 + k <= 60 ->
  (forall j, j < k -> probe w j = Refused) ->
  integration_tests w [] =
  match poll w 60 (1 + k) (start_events w ++ retry_blocks k)%list with
  | (Return retries, log) =>
      if (60 <=? retries)%nat then (Raise timed_out, log) else (Return tt, log)
  | (Raise e, log) => (Raise e, log)
  end.
Proof.
  intros Hup Hk Hrefused.
  rewrite (integration_tests_started Hup).
  rewrite (poll_refused_run 60 k 1 (start_events w) Hk); [reflexivity|].
  intros j Hj. rewrite requests_made_start_events. apply Hrefused. exact Hj.
Qed.

End Polling.

(** C1. The scenario of the specification, run on the code: the server refuses
    59 requests and would answer 200 to the 60th.  The loop test
    [retries < max_retries] fails once 59 requests were refused, so the 60th
    request is never sent and the task raises the timeout [Exit] instead of
    returning. *)
Theorem sixtieth_attempt_never_made :
  probe (lab (ready_after 59 200)) 59 = Answered 200 /\
  integration_tests (lab (ready_after 59 200)) [] =
    (Raise timed_out,
     (start_events (lab (ready_after 59 200)) ++ retry_blocks 59)%list) /\
  requests_made (snd (integration_tests (lab (ready_after 59 200)) [])) = 59.
Proof.
  split; [reflexivity|]. split; vm_compute; reflexivity.
Qed.

(** C2. Whatever the server replies and whatever the start command does, the
    task ends: it yields an outcome and a log, the log holds at most 60 GET
    requests, and the outcome is a normal return, the timeout, the immediate
    error of a response other than 200, or an exception passed on from
    [session.get] or from [context.run]. *)
Theorem integration_tests_terminates_within_ceiling (w : world) :
  exists (outcome : result unit) (log : list event),
    integration_tests w [] = (outcome, log) /\
    requests_made log <= 60 /\
    (outcome = Return tt \/
     outcome = Raise timed_out \/
     (exists status_code, status_code <> 200%Z /\
                          outcome = Raise (invalid_status status_code)) \/
     outcome = Raise RequestException \/
     outcome = Raise (UnexpectedExit (exit_status w (start_command w)))).
Proof.
  destruct (Z.eq_dec (exit_status w (start_command w)) 0) as [Hup|Hdown].
  - destruct (integration_tests_spec w Hup) as (k & _ & Hend).
    destruct Hend as [-> | Hlt Hp | c Hlt Hp Hc | Hlt Hp];
      eexists; eexists; (split; [reflexivity|]);
      rewrite !requests_made_app, requests_made_start_events,
        requests_made_retry_blocks;
      (split; [unfold requests_made; simpl; lia|]).
    + right; left; reflexivity.
    + left; reflexivity.
    + right; right; left. exists c. split; [exact Hc|reflexivity].
    + right; right; right; left; reflexivity.
  - rewrite (integration_tests_not_started w Hdown).
    eexists; eexists. split; [reflexivity|].
    rewrite requests_made_start_events. split; [lia|].
    right; right; right; right; reflexivity.
Qed.

(** C3. Once the containers are up, if request number [1 + k] is made inside
    the loop (its number is below [max_retries = 60]), every earlier request
    was refused and this one is answered with 200, then the task returns
    normally; its log ends with that request and the ready message, and
    exactly [1 + k] requests were made. *)
Theorem first_200_succeeds (w : world) (k : nat) :
  exit_status w (start_command w) = 0%Z ->
  1 + k < 60 ->
  (forall j, j < k -> probe w j = Refused) ->
  probe w k = Answered 200 ->
  integration_tests w [] =
    (Return tt,
     (start_events w ++ retry_blocks k
        ++ [Get "http://localhost:8080" 300; Stdout "Nautobot is ready..."])%list) /\
  requests_made (snd (integration_tests w [])) = 1 + k.
Proof.
  intros Hup Hk Hrefused H200.
  assert (Hrun : integration_tests w [] =
    (Return tt,
     (start_events w ++ retry_blocks k
        ++ [Get "http://localhost:8080" 300; Stdout "Nautobot is ready..."])%list)).
  { rewrite (integration_tests_after_refusals w k Hup) by (lia || exact Hrefused).
    rewrite poll_turn by lia.
    rewrite requests_made_app, requests_made_start_events,
      requests_made_retry_blocks.
    cbn [Nat.add]. rewrite H200. cbn [Z.eqb Pos.eqb].
    rewrite <- app_assoc.
    match goal with
    | |- context [(60 <=? ?n)%nat] => destruct (Nat.leb_spec 60 n); [lia|]
    end.
    reflexivity. }
  split; [exact Hrun|].
  rewrite Hrun. cbn [snd].
  rewrite !requests_made_app, requests_made_start_events,
    requests_made_retry_blocks.
  unfold requests_made. simpl. lia.
Qed.

Lemma first_200_succeeds_witness :
  integration_tests (lab (ready_after 2 200)) [] =
    (Return tt,
     (start_events (lab (ready_after 2 200)) ++ retry_blocks 2
        ++ [Get "http://localhost:8080" 300; Stdout "Nautobot is ready..."])%list) /\
  requests_made (snd (integration_tests (lab (ready_after 2 200)) [])) = 3.
Proof.
  apply (first_200_succeeds (lab (ready_after 2 200)) 2).
  - reflexivity.
  - lia.
  - intros [|[|j]] Hj; [reflexivity|reflexivity|lia].
  - reflexivity.
Defined.

(** C4. Once the containers are up, if request number [1 + k] is made inside
    the loop, every earlier request was refused and this one is answered with a
    status other than 200, then the task raises [Exit] with the invalid-status
    message and that status as its code.  This is not the timeout error, the
    log ends with that very request (no message, no pause, no retry after it),
    and exactly [1 + k] requests were made. *)
Theorem invalid_status_aborts (w : world) (k : nat) (status_code : Z) :
  exit_status w (start_command w) = 0%Z ->
  1 + k < 60 ->
  (forall j, j < k -> probe w j = Refused) ->
  probe w k = Answered status_code ->
  status_code <> 200%Z ->
  integration_tests w [] =
    (Raise (Exit ("Nautobot returned and invalid status " ++ str status_code)
                 status_code),
     (start_events w ++ retry_blocks k ++ [Get "http://localhost:8080" 300])%list) /\
  Exit ("Nautobot returned and invalid status " ++ str status_code) status_code
    <> timed_out /\
  requests_made (snd (integration_tests w [])) = 1 + k.
Proof.
  intros Hup Hk Hrefused Hreply Hne.
  assert (Hrun : integration_tests w [] =
    (Raise (invalid_status status_code),
     (start_events w ++ retry_blocks k ++ [Get "http://localhost:8080" 300])%list)).
  { rewrite (integration_tests_after_refusals w k Hup) by (lia || exact Hrefused).
    rewrite poll_turn by lia.
    rewrite requests_made_app, requests_made_start_events,
      requests_made_retry_blocks.
    cbn [Nat.add]. rewrite Hreply.
    destruct (Z.eqb_spec status_code 200) as [Heq|_]; [contradiction|].
    rewrite <- app_assoc. reflexivity. }
  split; [exact Hrun|]. split.
  - unfold timed_out. simpl. intros Heq. discriminate Heq.
  - rewrite Hrun. cbn [snd].
    rewrite !requests_made_app, requests_made_start_events,
      requests_made_retry_blocks.
    unfold requests_made. simpl. lia.
Qed.

Lemma invalid_status_aborts_witness :
  integration_tests (lab (ready_after 2 503)) [] =
    (Raise (Exit ("Nautobot returned and invalid status " ++ str 503) 503),
     (start_events (lab (ready_after 2 503)) ++ retry_blocks 2
        ++ [Get "http://localhost:8080" 300])%list) /\
  Exit ("Nautobot returned and invalid status " ++ str 503) 503 <> timed_out /\
  requests_made (snd (integration_tests (lab (ready_after 2 503)) [])) = 3.
Proof.
  apply (invalid_status_aborts (lab (ready_after 2 503)) 2 503).
  - reflexivity.
  - lia.
  - intros [|[|j]] Hj; [reflexivity|reflexivity|lia].
  - reflexivity.
  - discriminate.
Defined.

(** C5. Once the containers are up, if every request the loop makes (there are
    59 of them, numbered 0 to 58) is refused, the task raises [Exit] with the
    message "Timed Out waiting for Nautobot" and the code 1. *)
Theorem never_ready_times_out (w : world) :
  exit_status w (start_command w) = 0%Z ->
  (forall j, j < 59 -> probe w j = Refused) ->
  integration_tests w [] =
    (Raise (Exit "Timed Out waiting for Nautobot" 1),
     (start_events w ++ retry_blocks 59)%list) /\
  requests_made (snd (integration_tests w [])) = 59.
Proof.
  intros Hup Hrefused.
  assert (Hrun : integration_tests w [] =
    (Raise timed_out, (start_events w ++ retry_blocks 59)%list)).
  { rewrite (integration_tests_after_refusals w 59 Hup) by (lia || exact Hrefused).
    rewrite poll_done by (simpl; lia). reflexivity. }
  split; [exact Hrun|].
  rewrite Hrun. cbn [snd].
  rewrite requests_made_app, requests_made_start_events,
    requests_made_retry_blocks.
  reflexivity.
Qed.

Lemma never_ready_times_out_witness :
  integration_tests (lab (fun _ => Refused)) [] =
    (Raise (Exit "Timed Out waiting for Nautobot" 1),
     (start_events (lab (fun _ => Refused)) ++ retry_blocks 59)%list) /\
  requests_made (snd (integration_tests (lab (fun _ => Refused)) [])) = 59.
Proof.
  apply (never_ready_times_out (lab (fun _ => Refused))).
  - reflexivity.
  - intros j Hj. reflexivity.
Defined.

Lemma sleeps_until_get_retry_blocks (k : nat) (tail : list event) :
  sleeps_until_get tail = [] ->
  sleeps_until_get (retry_blocks k ++ tail) = [].
Proof.
  intros Htail. destruct k as [|k]; [exact Htail|reflexivity].
Qed.

Lemma delays_retry_blocks (k : nat) (tail : list event) :
  sleeps_until_get tail = [] ->
  delays (retry_blocks k ++ tail) = (repeat [5%Z] k ++ delays tail)%list.
Proof.
  intros Htail. induction k as [|k IH]; [reflexivity|].
  change (retry_blocks (S k) ++ tail)%list
    with (Get "http://localhost:8080" 300
            :: Stdout "Nautobot not ready yet sleeping for 5 seconds..."
            :: Sleep 5 :: (retry_blocks k ++ tail))%list.
  cbn [delays sleeps_until_get].
  rewrite (sleeps_until_get_retry_blocks k tail Htail), IH. reflexivity.
Qed.

Lemma delay_due_refused (w : world) (k : nat) :
  (forall j, j < k -> probe w j = Refused) ->
  map (fun j => delay_due (probe w j)) (seq 0 k) = repeat [5%Z] k.
Proof.
  induction k as [|k IH]; intros Hrefused; [reflexivity|].
  rewrite seq_S, map_app, IH by (intros j Hj; apply Hrefused; lia).
  cbn [Nat.add map]. rewrite (Hrefused k) by lia.
  cbn [delay_due]. rewrite <- repeat_cons. reflexivity.
Qed.

(** C6. In every run, each request the task makes is followed by exactly the
    pause its reply calls for: one sleep of 5 seconds after a request that
    raised a connection error, before the next request is sent, and no sleep
    after any other request.  Accordingly the log is the events of [start],
    then one identical retry block (request, message, [Sleep 5]) per refused
    request, then at most the last request with nothing slept after it; the
    durations slept are one 5 per refused request, the same in every
    iteration. *)
Theorem retry_delay_is_constant (w : world) :
  delays (snd (integration_tests w [])) =
    map (fun j => delay_due (probe w j))
      (seq 0 (requests_made (snd (integration_tests w [])))) /\
  exists (k : nat) (tail : list event),
    snd (integration_tests w []) = (start_events w ++ retry_blocks k ++ tail)%list /\
    (forall j, j < k -> probe w j = Refused) /\
    (tail = [] \/
     probe w k <> Refused /\
     (tail = [Get "http://localhost:8080" 300] \/
      tail = [Get "http://localhost:8080" 300; Stdout "Nautobot is ready..."])) /\
    sleep_durations tail = [] /\
    sleep_durations (snd (integration_tests w [])) = repeat 5%Z k.
Proof.
  assert (Hshape : exists (k : nat) (tail : list event),
    snd (integration_tests w []) = (start_events w ++ retry_blocks k ++ tail)%list /\
    (forall j, j < k -> probe w j = Refused) /\
    (tail = [] \/
     probe w k <> Refused /\
     (tail = [Get "http://localhost:8080" 300] \/
      tail = [Get "http://localhost:8080" 300; Stdout "Nautobot is ready..."]))).
  { destruct (Z.eq_dec (exit_status w (start_command w)) 0) as [Hup|Hdown].
    - destruct (integration_tests_spec w Hup) as (k & Hrefused & Hend).
      exists k.
      destruct Hend as [_ | _ Hp | c _ Hp _ | _ Hp]; cbn [snd].
      + exists []. rewrite app_nil_r.
        split; [reflexivity|]. split; [exact Hrefused|]. left; reflexivity.
      + eexists. split; [reflexivity|]. split; [exact Hrefused|].
        right. split; [rewrite Hp; discriminate|right; reflexivity].
      + eexists. split; [reflexivity|]. split; [exact Hrefused|].
        right. split; [rewrite Hp; discriminate|left; reflexivity].
      + eexists. split; [reflexivity|]. split; [exact Hrefused|].
        right. split; [rewrite Hp; discriminate|left; reflexivity].
    - rewrite (integration_tests_not_started w Hdown). cbn [snd].
      exists 0, []. rewrite app_nil_r.
      split; [reflexivity|]. split; [intros j Hj; lia|]. left; reflexivity. }
  destruct Hshape as (k & tail & Hlog & Hrefused & Htail).
  assert (Hquiet : sleep_durations tail = [] /\ sleeps_until_get tail = []).
  { destruct Htail as [-> | [_ [-> | ->]]]; split; reflexivity. }
  destruct Hquiet as [Hsleeps Huntil].
  split.
  - rewrite Hlog.
    change (delays (start_events w ++ retry_blocks k ++ tail))
      with (delays (retry_blocks k ++ tail)).
    rewrite (delays_retry_blocks k tail Huntil).
    rewrite !requests_made_app, requests_made_start_events,
      requests_made_retry_blocks.
    cbn [Nat.add]. rewrite seq_app, map_app, (delay_due_refused w k Hrefused).
    f_equal. cbn [Nat.add].
    destruct Htail as [-> | [Hreply [-> | ->]]].
    + reflexivity.
    + unfold requests_made. simpl.
      destruct (probe w k); [contradiction|reflexivity|reflexivity].
    + unfold requests_made. simpl.
      destruct (probe w k); [contradiction|reflexivity|reflexivity].
  - exists k, tail. split; [exact Hlog|]. split; [exact Hrefused|].
    split; [exact Htail|]. split; [exact Hsleeps|].
    rewrite Hlog, !sleep_durations_app, Hsleeps, sleep_durations_retry_blocks.
    simpl. rewrite app_nil_r. reflexivity.
Qed.

(** C9. [createsuperuser] does the same for every value of [user]: the command
    it hands to [docker_compose] is the literal ending in "{user}", and so is
    the command line it runs. *)
Theorem createsuperuser_ignores_user (w : world) (user1 user2 : string)
    (log : list event) :
  createsuperuser w user1 log = createsuperuser w user2 log /\
  createsuperuser w user1 =
    docker_compose w
      ("run nautobot nautobot-server createsuperuser --username " ++ "{user}") true /\
  snd (createsuperuser w user1 log) =
    (log ++
     [ Stdout ("Running docker-compose command " ++ dquote
                ++ "run nautobot nautobot-server createsuperuser --username {user}"
                ++ dquote);
       Run (COMPOSE_COMMAND w
              ++ " run nautobot nautobot-server createsuperuser --username {user}")
           [("PYTHON_VER", PYTHON_VER w)] true ])%list.
Proof.
  split; [reflexivity|]. split; [reflexivity|].
  unfold createsuperuser, docker_compose, context_run, print, emit, bind.
  rewrite <- app_assoc.
  destruct (exit_status w _ =? 0)%Z; reflexivity.
Qed.

End TasksFacts.

(** ** The command line and the remaining tasks *)

Module ComposeFacts.
Import Tasks.
Local Open Scope task_scope.

Lemma append_assoc (a b c : string) : (a ++ b) ++ c = a ++ (b ++ c).
Proof. induction a as [|x a IH]; simpl; [reflexivity|rewrite IH; reflexivity]. Qed.

Lemma append_nil_r (a : string) : a ++ EmptyString = a.
Proof. induction a as [|x a IH]; simpl; [reflexivity|rewrite IH; reflexivity]. Qed.

Lemma append_length (a b : string) :
  String.length (a ++ b) = String.length a + String.length b.
Proof. induction a as [|x a IH]; simpl; [reflexivity|rewrite IH; reflexivity]. Qed.

Lemma append_cancel_l (p a b : string) : p ++ a = p ++ b -> a = b.
Proof.
  induction p as [|x p IH]; simpl; intros H; [exact H|].
  injection H as H. apply IH. exact H.
Qed.

Lemma ends_with_slash_app (a b : string) :
  ends_with_slash b = true -> ends_with_slash (a ++ b) = true.
Proof.
  intros Hb. induction a as [|x a IH]; simpl; [exact Hb|].
  destruct (a ++ b) eqn:Hab; [|exact IH].
  destruct a; simpl in Hab; [subst b; discriminate Hb|discriminate Hab].
Qed.

Lemma compose_dir_shape (w : world) :
  ends_with_slash (COMPOSE_DIR w) = true /\
  exists stem, COMPOSE_DIR w = stem ++ "development/".
Proof.
  unfold COMPOSE_DIR, path_join. cbn [starts_with_slash Ascii.eqb Bool.eqb].
  destruct (orb _ _).
  - split; [apply ends_with_slash_app; reflexivity|].
    exists (file_dirname w). reflexivity.
  - split.
    + apply ends_with_slash_app. reflexivity.
    + exists (file_dirname w ++ "/"). rewrite append_assoc. reflexivity.
Qed.

(** X1. Whatever directory tasks.py lies in, [COMPOSE_DIR] ends with a slash
    and with "development/", so the compose file is [COMPOSE_DIR] followed
    directly by its name: joining never doubles or drops a separator. *)
Theorem compose_file_in_compose_dir (w : world) :
  ends_with_slash (COMPOSE_DIR w) = true /\
  (exists stem, COMPOSE_DIR w = stem ++ "development/") /\
  COMPOSE_FILE w = COMPOSE_DIR w ++ "docker-compose.yml".
Proof.
  destruct (compose_dir_shape w) as [Hslash Hstem].
  split; [exact Hslash|]. split; [exact Hstem|].
  unfold COMPOSE_FILE, path_join. cbn [starts_with_slash Ascii.eqb Bool.eqb].
  rewrite Hslash, Bool.orb_true_r. reflexivity.
Qed.

(** X2. The override file is looked up inside [COMPOSE_DIR] unless the name
    given by OVERRIDE_FILENAME starts with a slash: an absolute name is used as
    it is and the directory is dropped.  With the variable unset the file is
    docker-compose.dev.yml in [COMPOSE_DIR]. *)
Theorem override_file_location (w : world) :
  COMPOSE_OVERRIDE_FILE w =
    match getenv w "OVERRIDE_FILENAME" with
    | None => COMPOSE_DIR w ++ "docker-compose.dev.yml"
    | Some name => if starts_with_slash name then name else COMPOSE_DIR w ++ name
    end.
Proof.
  destruct (compose_dir_shape w) as [Hslash _].
  assert (Hjoin : forall name, path_join (COMPOSE_DIR w) name =
            if starts_with_slash name then name else COMPOSE_DIR w ++ name).
  { intros name. unfold path_join. rewrite Hslash, Bool.orb_true_r. reflexivity. }
  unfold COMPOSE_OVERRIDE_FILE, OVERRIDE_FILENAME, os_getenv.
  rewrite Hjoin. destruct (getenv w "OVERRIDE_FILENAME"); reflexivity.
Qed.

(** X3. The compose command names the override file exactly when that file
    exists: without it the command ends with the compose file, with it the
    same command is followed by one more -f option. *)
Theorem compose_command_override (w : world) :
  let base :=
    "docker-compose --project-name nautobot_dev --project-directory "
      ++ dquote ++ COMPOSE_DIR w ++ dquote
      ++ " -f " ++ dquote ++ COMPOSE_DIR w ++ "docker-compose.yml" ++ dquote in
  COMPOSE_COMMAND w =
    if isfile w (COMPOSE_OVERRIDE_FILE w)
    then base ++ " -f " ++ dquote ++ COMPOSE_OVERRIDE_FILE w ++ dquote
    else base.
Proof.
  cbv zeta. unfold COMPOSE_COMMAND, PROJECT_NAME.
  assert (Hfile : COMPOSE_FILE w = COMPOSE_DIR w ++ "docker-compose.yml").
  { destruct (compose_dir_shape w) as [Hslash _].
    unfold COMPOSE_FILE, path_join. cbn [starts_with_slash Ascii.eqb Bool.eqb].
    rewrite Hslash, Bool.orb_true_r. reflexivity. }
  rewrite Hfile. cbv zeta.
  destruct (isfile w (COMPOSE_OVERRIDE_FILE w));
    rewrite ?append_assoc; reflexivity.
Qed.

Lemma docker_compose_runs (w : world) (command : string) (pty : bool) :
  runs_compose w (docker_compose w command pty) [] command pty.
Proof.
  intros log. unfold docker_compose, context_run, print, emit, bind.
  fold (compose w command). rewrite <- app_assoc. simpl.
  destruct (exit_status w (compose w command) =? 0)%Z; reflexivity.
Qed.

Lemma context_run_runs (w : world) (command : string)
    (env : list (string * string)) (pty : bool) :
  runs w (context_run w command env pty) [] command env pty.
Proof.
  intros log. unfold context_run, emit, bind. simpl.
  destruct (exit_status w command =? 0)%Z; reflexivity.
Qed.

(** A banner printed before a task that runs one command. *)
Lemma print_then_runs (w : world) (t : task unit) (line : string)
    (banner : list string) (command : string) (env : list (string * string))
    (pty : bool) :
  runs w t banner command env pty ->
  runs w (print line ;; t) (line :: banner) command env pty.
Proof.
  intros Ht log. unfold bind, print, emit. rewrite Ht.
  rewrite <- app_assoc. reflexivity.
Qed.

(** X4. Each of these tasks runs exactly one docker-compose command, the
    project's compose command followed by the task's own sub-command, after
    announcing it; the task returns when that command exits with 0 and raises
    [UnexpectedExit] with its status otherwise.  Only the interactive ones
    ask for a pty. *)
Theorem compose_tasks (w : world) :
  runs_compose w (debug w) ["Starting Nautobot in debug mode..."] "up" false /\
  runs_compose w (start w) ["Starting Nautobot in detached mode..."] "up --detach" false /\
  runs_compose w (restart w) ["Restarting Nautobot..."] "restart" false /\
  runs_compose w (stop w) ["Stopping Nautobot..."] "down" false /\
  runs_compose w (destroy w) ["Destroying Nautobot..."] "down --volumes" false /\
  runs_compose w (nbshell w) [] "run nautobot nautobot-server nbshell" true /\
  runs_compose w (cli w) [] "exec nautobot bash" true /\
  runs_compose w (migrate w) [] "run nautobot nautobot-server migrate" false /\
  runs_compose w (post_upgrade w) [] "run nautobot nautobot-server post_upgrade" false /\
  runs_compose w (unittest_coverage w) []
    "run --entrypoint 'coverage report --skip-covered --omit *migrations*' nautobot" true.
Proof.
  repeat split;
    first [ apply docker_compose_runs
          | apply (print_then_runs w); apply docker_compose_runs ].
Qed.

(** Bring the command of the statement to the shape the task builds it in. *)
Ltac same_command :=
  match goal with
  | |- runs_compose _ (docker_compose _ ?c _) _ ?c' _ =>
      replace c' with c by (rewrite ?append_assoc, ?append_nil_r; reflexivity)
  | |- runs_compose _ (bind _ (fun _ => docker_compose _ ?c _)) _ ?c' _ =>
      replace c' with c by (rewrite ?append_assoc, ?append_nil_r; reflexivity)
  | |- runs _ (bind _ (fun _ => context_run _ ?c _ _)) _ ?c' _ _ =>
      replace c' with c by (rewrite ?append_assoc, ?append_nil_r; reflexivity)
  end.

(** X5. [build] announces itself and runs one docker-compose build whose
    --build-arg carries the same PYTHON_VER as the environment of the command;
    --no-cache is added exactly when the cache is off, --force-rm exactly when
    asked for, in this order. *)
Theorem build_command (w : world) (force_rm cache : bool) :
  runs_compose w (build w force_rm cache) ["Building Nautobot .. "]
    ("build --build-arg PYTHON_VER=" ++ PYTHON_VER w
       ++ (if cache then EmptyString else " --no-cache")
       ++ (if force_rm then " --force-rm" else EmptyString))
    false.
Proof.
  unfold build. cbv zeta.
  destruct cache, force_rm; cbn [negb]; same_command;
    apply (print_then_runs w); apply docker_compose_runs.
Qed.

(** X6. [buildx] does not go through docker-compose: it prints its banner
    only and runs docker buildx itself, with PYTHON_VER in the environment.
    With the cache on, the build writes to and reads from one and the same
    directory, [cache_dir] followed by the Python version; with the cache off
    the command ends with --no-cache and names no cache directory. *)
Theorem buildx_command (w : world) (cache : bool)
    (cache_dir platforms tag target : string) :
  let head :=
    "docker buildx build --platform " ++ platforms ++ " -t " ++ tag
      ++ " --target " ++ target
      ++ " --load -f ./docker/Dockerfile --build-arg PYTHON_VER=" ++ PYTHON_VER w
      ++ " ." in
  let dir := cache_dir ++ "/" ++ PYTHON_VER w in
  runs w (buildx w cache cache_dir platforms tag target) ["Building Nautobot .. "]
    (if cache
     then head ++ " --cache-to type=local,dest=" ++ dir
            ++ " --cache-from type=local,src=" ++ dir
     else head ++ " --no-cache")
    [("PYTHON_VER", PYTHON_VER w)] false.
Proof.
  cbv zeta. unfold buildx. cbv zeta.
  destruct cache; cbn [negb]; same_command;
    apply (print_then_runs w); apply context_run_runs.
Qed.

(** X7. Each linter has two modes with the same command text.  Run locally,
    the command is executed as it is, with no environment and no pty; otherwise
    that very text is handed to docker-compose as the quoted entrypoint of the
    nautobot service, with a pty.  Unless autoformat is set, black only checks
    (--check --diff). *)
Theorem linters_local_or_container (w : world) :
  Forall
    (fun '(linter, command) =>
       runs w (linter true) [] command [] false /\
       runs_compose w (linter false) []
         ("run --entrypoint '" ++ command ++ "' nautobot") true)
    [ (black w false, "black --check --diff development/ nautobot/ tasks.py");
      (black w true, "black development/ nautobot/ tasks.py");
      (flake8 w, "flake8 development/ nautobot/ tasks.py");
      (hadolint w, "hadolint docker/Dockerfile") ].
Proof.
  repeat constructor;
    first [ apply context_run_runs | apply docker_compose_runs ].
Qed.

(** X8. [unittest] runs coverage over the given label inside one quoted
    entrypoint, always with --failfast; --keepdb, when asked for, lands inside
    the quotes, before the service name. *)
Theorem unittest_command (w : world) (keepdb : bool) (label : string) :
  runs_compose w (unittest w keepdb label) []
    ("run --entrypoint 'coverage run -m nautobot.core.cli test " ++ label
       ++ " --failfast" ++ (if keepdb then " --keepdb" else EmptyString)
       ++ "' nautobot")
    true.
Proof.
  unfold unittest. cbv zeta.
  destruct keepdb; same_command; apply docker_compose_runs.
Qed.

Lemma commands_run_app (l1 l2 : list event) :
  commands_run (l1 ++ l2) = (commands_run l1 ++ commands_run l2)%list.
Proof.
  induction l1 as [|e l1 IH]; [reflexivity|].
  destruct e; simpl; rewrite IH; reflexivity.
Qed.

Lemma runs_outcome (w : world) (t : task unit) (banner : list string)
    (command : string) (env : list (string * string)) (pty : bool)
    (log : list event) :
  runs w t banner command env pty ->
  fst (t log) =
    (if (exit_status w command =? 0)%Z
     then Return tt else Raise (UnexpectedExit (exit_status w command))) /\
  commands_run (snd (t log)) = (commands_run log ++ [command])%list /\
  requests_made (snd (t log)) = requests_made log /\
  sleep_durations (snd (t log)) = sleep_durations log.
Proof.
  intros Ht. rewrite Ht. cbn [fst snd]. split; [reflexivity|].
  assert (Hbanner : commands_run (map Stdout banner) = [] /\
                    filter is_get (map Stdout banner) = [] /\
                    sleep_durations (map Stdout banner) = []).
  { clear Ht. induction banner as [|line banner IH]; simpl; [repeat split|exact IH]. }
  destruct Hbanner as (Hc & Hg & Hs).
  split; [|split].
  - rewrite !commands_run_app, Hc. reflexivity.
  - unfold requests_made. rewrite !filter_app, Hg. simpl.
    rewrite app_nil_r. reflexivity.
  - rewrite !TasksFacts.sleep_durations_app, Hs. simpl.
    rewrite app_nil_r. reflexivity.
Qed.

Lemma runs_then (w : world) (t : task unit) (banner : list string)
    (command : string) (env : list (string * string)) (pty : bool)
    (k : task unit) (log : list event) :
  runs w t banner command env pty ->
  (t ;; k) log =
  if (exit_status w command =? 0)%Z
  then k (log ++ map Stdout banner ++ [Run command env pty])%list
  else (Raise (UnexpectedExit (exit_status w command)),
        (log ++ map Stdout banner ++ [Run command env pty])%list).
Proof.
  intros Ht. unfold bind. rewrite Ht.
  destruct (exit_status w command =? 0)%Z; reflexivity.
Qed.

Ltac tidy_commands :=
  cbn [fst snd]; rewrite !commands_run_app; rewrite <- ?app_assoc;
  cbn [commands_run map app]; split; reflexivity.

(** X9. [tests] runs black (check only), flake8, hadolint and the unit tests
    in this order, each in the container, and stops at the first command that
    exits non-zero: the commands started are those up to and including the
    first failure, the later ones are never run, and the task raises
    [UnexpectedExit] with the failing status.  It returns only when all four
    exit with 0. *)
Theorem tests_stop_at_first_failure (w : world) (log : list event) :
  fst (tests w log) =
    match snd (until_failure w (tests_commands w)) with
    | None => Return tt
    | Some status => Raise (UnexpectedExit status)
    end /\
  commands_run (snd (tests w log)) =
    (commands_run log ++ fst (until_failure w (tests_commands w)))%list.
Proof.
  assert (Hblack : runs_compose w (black w false false) []
            "run --entrypoint 'black --check --diff development/ nautobot/ tasks.py' nautobot"
            true) by apply docker_compose_runs.
  assert (Hflake8 : runs_compose w (flake8 w false) []
            "run --entrypoint 'flake8 development/ nautobot/ tasks.py' nautobot"
            true) by apply docker_compose_runs.
  assert (Hhadolint : runs_compose w (hadolint w false) []
            "run --entrypoint 'hadolint docker/Dockerfile' nautobot"
            true) by apply docker_compose_runs.
  assert (Hunittest : runs_compose w (unittest w false "nautobot") []
            "run --entrypoint 'coverage run -m nautobot.core.cli test nautobot --failfast' nautobot"
            true) by apply docker_compose_runs.
  unfold tests, tests_commands. cbn [until_failure].
  rewrite (runs_then w _ _ _ _ _ _ log Hblack).
  destruct (exit_status w (compose w _) =? 0)%Z;
    [|tidy_commands].
  rewrite (runs_then w _ _ _ _ _ _ _ Hflake8).
  destruct (exit_status w (compose w _) =? 0)%Z;
    [|tidy_commands].
  rewrite (runs_then w _ _ _ _ _ _ _ Hhadolint).
  destruct (exit_status w (compose w _) =? 0)%Z;
    [|tidy_commands].
  rewrite Hunittest.
  destruct (exit_status w (compose w _) =? 0)%Z; tidy_commands.
Qed.

(** X10. [makemigrations] with an empty name adds no option, so the name is
    generated; with any other name the command ends with --name and that name
    as given. *)
Theorem makemigrations_command (w : world) (name : string) :
  runs_compose w (makemigrations w name) []
    (match name with
     | EmptyString => "run nautobot nautobot-server makemigrations"
     | String _ _ => "run nautobot nautobot-server makemigrations --name " ++ name
     end)
    false.
Proof.
  unfold makemigrations. cbv zeta.
  destruct name as [|c name]; cbn [truthy]; apply docker_compose_runs.
Qed.

(** X11. Unlike [createsuperuser], [makemigrations] does pass its option on:
    two calls that run the same command line were given the same name. *)
Theorem makemigrations_name_matters (w : world) (name1 name2 : string) :
  commands_run (snd (makemigrations w name1 [])) =
  commands_run (snd (makemigrations w name2 [])) ->
  name1 = name2.
Proof.
  intros Hsame.
  assert (Hcmd : forall name,
    commands_run (snd (makemigrations w name [])) =
    [compose w (if truthy name
                then "run nautobot nautobot-server makemigrations" ++ " --name " ++ name
                else "run nautobot nautobot-server makemigrations")]).
  { intros name.
    assert (Hruns : runs_compose w (makemigrations w name) []
              (if truthy name
               then "run nautobot nautobot-server makemigrations" ++ " --name " ++ name
               else "run nautobot nautobot-server makemigrations") false)
      by (destruct name; apply docker_compose_runs).
    destruct (runs_outcome w _ _ _ _ _ [] Hruns) as (_ & Hc & _). exact Hc. }
  rewrite !Hcmd in Hsame. injection Hsame as Hsame.
  unfold compose in Hsame.
  apply append_cancel_l in Hsame. apply append_cancel_l in Hsame.
  destruct name1 as [|c1 name1], name2 as [|c2 name2]; cbn [truthy] in Hsame.
  - reflexivity.
  - simpl in Hsame. discriminate Hsame.
  - simpl in Hsame. discriminate Hsame.
  - simpl in Hsame. injection Hsame as Hc Hname. rewrite Hc, Hname. reflexivity.
Qed.

Lemma makemigrations_name_matters_witness : "initial" = "initial".
Proof.
  apply (makemigrations_name_matters (lab (fun _ => Refused)) "initial" "initial").
  reflexivity.
Defined.

End ComposeFacts.

(** ** More on the readiness probe *)

Module ProbeFacts.
Import Tasks.
Local Open Scope task_scope.

(** The log of any run: what [start] logs, some retry blocks, and at most one
    last request, followed by the ready message when it was answered 200. *)
Lemma run_shape (w : world) :
  exists (k : nat) (tail : list event),
    snd (integration_tests w []) = (start_events w ++ retry_blocks k ++ tail)%list /\
    k <= 59 /\
    (tail = [] \/
     tail = [Get "http://localhost:8080" 300] \/
     tail = [Get "http://localhost:8080" 300; Stdout "Nautobot is ready..."]).
Proof.
  destruct (Z.eq_dec (exit_status w (start_command w)) 0) as [Hup|Hdown].
  - destruct (TasksFacts.integration_tests_spec w Hup) as (k & _ & Hend).
    exists k.
    destruct Hend as [-> | Hlt _ | c Hlt _ _ | Hlt _]; cbn [snd].
    + exists []. rewrite app_nil_r. repeat split; [lia|left; reflexivity].
    + eexists. repeat split; [lia|right; right; reflexivity].
    + eexists. repeat split; [lia|right; left; reflexivity].
    + eexists. repeat split; [lia|right; left; reflexivity].
  - rewrite (TasksFacts.integration_tests_not_started w Hdown). cbn [snd].
    exists 0, []. rewrite app_nil_r. repeat split; [lia|left; reflexivity].
Qed.

Lemma commands_run_retry_blocks (k : nat) : commands_run (retry_blocks k) = [].
Proof. induction k as [|k IH]; [reflexivity|exact IH]. Qed.

Lemma seconds_slept_repeat (k : nat) :
  fold_right Z.add 0%Z (repeat 5%Z k) = (5 * Z.of_nat k)%Z.
Proof.
  induction k as [|k IH]; [reflexivity|].
  cbn [repeat fold_right]. rewrite IH. lia.
Qed.

(** X12. If the containers cannot be started, the probe never begins: the task
    raises [UnexpectedExit] with the status of the start command, after the
    events of [start] alone; no request is sent and nothing is slept. *)
Theorem no_probe_without_start (w : world) :
  exit_status w (start_command w) <> 0%Z ->
  integration_tests w [] =
    (Raise (UnexpectedExit (exit_status w (start_command w))), start_events w) /\
  requests_made (snd (integration_tests w [])) = 0 /\
  sleep_durations (snd (integration_tests w [])) = [].
Proof.
  intros Hdown. rewrite (TasksFacts.integration_tests_not_started w Hdown).
  repeat split.
Qed.

Lemma no_probe_without_start_witness :
  let w := site (fun _ => None) "/opt/nautobot" (fun _ => false) (fun _ => 1%Z)
             (fun _ => Answered 200) in
  integration_tests w [] =
    (Raise (UnexpectedExit (exit_status w (start_command w))), start_events w) /\
  requests_made (snd (integration_tests w [])) = 0 /\
  sleep_durations (snd (integration_tests w [])) = [].
Proof.
  apply (no_probe_without_start
           (site (fun _ => None) "/opt/nautobot" (fun _ => false) (fun _ => 1%Z)
              (fun _ => Answered 200))).
  simpl. discriminate.
Defined.

(** X13. An exception of [session.get] other than a connection error is not
    retried: once the containers are up, if the requests before number [1 + k]
    were refused and this one, made inside the loop, raises such an exception,
    the task passes it on at once and the log ends with that request. *)
Theorem other_exception_not_retried (w : world) (k : nat) :
  exit_status w (start_command w) = 0%Z ->
  1 + k < 60 ->
  (forall j, j < k -> probe w j = Refused) ->
  probe w k = Broken ->
  integration_tests w [] =
    (Raise RequestException,
     (start_events w ++ retry_blocks k ++ [Get "http://localhost:8080" 300])%list).
Proof.
  intros Hup Hk Hrefused Hbroken.
  rewrite (TasksFacts.integration_tests_after_refusals w k Hup)
    by (lia || exact Hrefused).
  rewrite TasksFacts.poll_turn by lia.
  rewrite TasksFacts.requests_made_app, TasksFacts.requests_made_start_events,
    TasksFacts.requests_made_retry_blocks.
  cbn [Nat.add]. rewrite Hbroken. rewrite <- app_assoc. reflexivity.
Qed.

Lemma other_exception_not_retried_witness :
  let w := lab (fun k => if (k <? 1)%nat then Refused else Broken) in
  integration_tests w [] =
    (Raise RequestException,
     (start_events w ++ retry_blocks 1 ++ [Get "http://localhost:8080" 300])%list).
Proof.
  apply (other_exception_not_retried
           (lab (fun k => if (k <? 1)%nat then Refused else Broken)) 1).
  - reflexivity.
  - lia.
  - intros [|j] Hj; [reflexivity|lia].
  - reflexivity.
Defined.

(** X14. In every run the task sleeps 5 seconds per retry block and 295
    seconds at most; the requests made are as many as the pauses, or one
    more. *)
Theorem sleep_budget (w : world) :
  exists k : nat,
    k <= 59 /\
    seconds_slept (snd (integration_tests w [])) = (5 * Z.of_nat k)%Z /\
    (seconds_slept (snd (integration_tests w [])) <= 295)%Z /\
    length (sleep_durations (snd (integration_tests w []))) = k /\
    (requests_made (snd (integration_tests w [])) = k \/
     requests_made (snd (integration_tests w [])) = 1 + k).
Proof.
  destruct (run_shape w) as (k & tail & Hlog & Hk & Htail).
  exists k. split; [exact Hk|].
  assert (Hsleeps : sleep_durations (snd (integration_tests w [])) = repeat 5%Z k).
  { rewrite Hlog, !TasksFacts.sleep_durations_app,
      TasksFacts.sleep_durations_retry_blocks.
    destruct Htail as [-> | [-> | ->]]; simpl; rewrite app_nil_r; reflexivity. }
  unfold seconds_slept. rewrite Hsleeps, seconds_slept_repeat, repeat_length.
  split; [reflexivity|]. split; [lia|]. split; [reflexivity|].
  rewrite Hlog, !TasksFacts.requests_made_app,
    TasksFacts.requests_made_start_events, TasksFacts.requests_made_retry_blocks.
  destruct Htail as [-> | [-> | ->]]; unfold requests_made; simpl;
    [left|right|right]; lia.
Qed.

(** X15. The only shell command [integration_tests] ever runs is the one of
    [start], and it runs it once. *)
Theorem only_start_is_run (w : world) :
  commands_run (snd (integration_tests w [])) = [start_command w].
Proof.
  destruct (run_shape w) as (k & tail & Hlog & _ & Htail).
  rewrite Hlog, !ComposeFacts.commands_run_app, commands_run_retry_blocks.
  destruct Htail as [-> | [-> | ->]]; reflexivity.
Qed.

(** X16. Once the containers are up, the requests a run makes are exactly
    those numbered below 60 whose predecessors were all refused: request
    number [1 + k] is sent if and only if [1 + k < 60] and the [k] requests
    before it raised a connection error. *)
Theorem requests_made_exactly (w : world) (k : nat) :
  exit_status w (start_command w) = 0%Z ->
  k < requests_made (snd (integration_tests w [])) <->
  1 + k < 60 /\ (forall j, j < k -> probe w j = Refused).
Proof.
  intros Hup. exact (TasksFacts.request_made_iff w k Hup).
Qed.

Lemma requests_made_exactly_witness :
  2 < requests_made (snd (integration_tests (lab (ready_after 2 200)) [])) <->
  1 + 2 < 60 /\ (forall j, j < 2 -> probe (lab (ready_after 2 200)) j = Refused).
Proof.
  apply (requests_made_exactly (lab (ready_after 2 200)) 2).
  reflexivity.
Defined.

(** X17. The loop for any ceiling and any starting counter: it only appends
    to the log, sends at most [max_retries - retries] requests (none when the
    counter has already reached the ceiling), and either returns a counter
    between the starting one and the ceiling or raises for a reply that was
    neither a refusal nor a 200. *)
Theorem poll_bounded (w : world) (max_retries retries : nat) (log : list event) :
  exists ext : list event,
    snd (poll w max_retries retries log) = (log ++ ext)%list /\
    requests_made ext <= max_retries - retries /\
    match fst (poll w max_retries retries log) with
    | Return retries' => retries <= retries' /\ retries' <= Nat.max retries max_retries
    | Raise e =>
        e = RequestException \/
        exists status_code, status_code <> 200%Z /\ e = invalid_status status_code
    end.
Proof.
  destruct (TasksFacts.poll_spec w max_retries (max_retries - retries) retries log
              eq_refl) as (k & Hk & _ & Hend).
  destruct Hend as [Hge | Hlt _ | c Hlt _ Hc | Hlt _]; cbn [fst snd];
    eexists; (split; [reflexivity|]);
    rewrite ?TasksFacts.requests_made_app, TasksFacts.requests_made_retry_blocks;
    unfold requests_made; simpl; (split; [lia|]).
  - lia.
  - lia.
  - right. exists c. split; [exact Hc|reflexivity].
  - left. reflexivity.
Qed.

Lemma poll_same_replies (w1 w2 : world) (max_retries : nat) :
  forall (n retries : nat) (log : list event),
    max_retries - retries = n ->
    (forall j, j < n ->
       probe w1 (requests_made log + j) = probe w2 (requests_made log + j)) ->
    poll w1 max_retries retries log = poll w2 max_retries retries log.
Proof.
  induction n as [|n IH]; intros retries log Hn Hsame.
  - rewrite (TasksFacts.poll_done w1), (TasksFacts.poll_done w2) by lia.
    reflexivity.
  - rewrite (TasksFacts.poll_turn w1), (TasksFacts.poll_turn w2) by lia.
    pose proof (Hsame 0 ltac:(lia)) as H0. rewrite Nat.add_0_r in H0.
    rewrite H0.
    destruct (probe w2 (requests_made log)); [|reflexivity|reflexivity].
    apply IH; [lia|].
    intros j Hj. rewrite TasksFacts.requests_made_app.
    change (requests_made retry_block) with 1.
    replace (requests_made log + 1 + j) with (requests_made log + S j) by lia.
    apply Hsame. lia.
Qed.

(** X18. Only the first 59 replies of the server count: two servers that
    reply alike to requests 0 to 58 give, in the same surroundings, the same
    outcome and the same log, whatever they would reply later. *)
Theorem later_replies_never_matter (env : string -> option string) (dir : string)
    (files : string -> bool) (statuses : string -> Z) (replies1 replies2 : nat -> reply) :
  (forall j, j < 59 -> replies1 j = replies2 j) ->
  integration_tests (site env dir files statuses replies1) [] =
  integration_tests (site env dir files statuses replies2) [].
Proof.
  intros Hsame.
  set (w1 := site env dir files statuses replies1).
  set (w2 := site env dir files statuses replies2).
  destruct (Z.eq_dec (exit_status w1 (start_command w1)) 0) as [Hup|Hdown].
  - rewrite (TasksFacts.integration_tests_started w1 Hup).
    rewrite (TasksFacts.integration_tests_started w2 Hup).
    change (start_events w2) with (start_events w1).
    rewrite (poll_same_replies w1 w2 60 59 1 (start_events w1) eq_refl);
      [reflexivity|].
    intros j Hj. rewrite TasksFacts.requests_made_start_events.
    apply Hsame. exact Hj.
  - rewrite (TasksFacts.integration_tests_not_started w1 Hdown).
    rewrite (TasksFacts.integration_tests_not_started w2 Hdown).
    reflexivity.
Qed.

Lemma later_replies_never_matter_witness :
  integration_tests
    (site (fun _ => None) "/opt/nautobot" (fun _ => false) (fun _ => 0%Z)
       (ready_after 59 200)) [] =
  integration_tests
    (site (fun _ => None) "/opt/nautobot" (fun _ => false) (fun _ => 0%Z)
       (fun _ => Refused)) [].
Proof.
  apply (later_replies_never_matter (fun _ => None) "/opt/nautobot"
           (fun _ => false) (fun _ => 0%Z) (ready_after 59 200) (fun _ => Refused)).
  intros j Hj. unfold ready_after.
  destruct (Nat.ltb_spec j 59) as [_|Hge]; [reflexivity|lia].
Defined.

End ProbeFacts.

(** ** More on the menu *)

Module MenuFacts.
Import Navigation.

(** X19. At every level the menu is written in ascending order of weight, so
    the order of display is the order of the source: the tabs, the groups of
    each tab and the items of each group have strictly increasing weights. *)
Theorem menu_listed_by_weight :
  StronglySorted Z.lt (map tab_weight menu_items) /\
  Forall (fun tab => StronglySorted Z.lt (map group_weight (groups tab))) menu_items /\
  Forall (fun group => StronglySorted Z.lt (map item_weight (items group)))
    (all_groups menu_items).
Proof.
  repeat split; simpl; repeat constructor.
Qed.

(** X20. Every item has exactly two buttons, an add button and then an import
    button, and the three links share one stem: the item links to the stem
    followed by _list, the buttons to the stem followed by _add and by
    _import. *)
Theorem buttons_follow_item_link :
  Forall
    (fun it =>
       exists stem,
         item_link it = stem ++ "_list" /\
         map (fun b => (button_class_of b, button_link b)) (buttons it) =
           [ (NavMenuAddButton, stem ++ "_add");
             (NavMenuImportButton, stem ++ "_import") ])
    (all_items menu_items).
Proof.
  simpl. repeat constructor.
  - exists "tenancy:tenant". split; reflexivity.
  - exists "tenancy:tenantgroup". split; reflexivity.
Qed.

(** X21. No two items share a name or a link, and no two buttons of the menu
    share a link. *)
Theorem names_and_links_unique :
  NoDup (map item_name (all_items menu_items)) /\
  NoDup (map item_link (all_items menu_items)) /\
  NoDup (map button_link (all_buttons menu_items)).
Proof.
  repeat split; simpl; repeat constructor;
    simpl; intuition discriminate.
Qed.

End MenuFacts.
